(** * FontEngine bindings of python-mapnik

    A shallow embedding of [src/mapnik_font_engine.cpp]: the four lambdas
    that [export_font_engine] binds as static methods of the Python class
    [FontEngine], the table of bindings itself, and the way a host call is
    resolved against that table.

    The lambdas are written as programs over the operations they perform:
    calls into [mapnik::freetype_engine] (whose code is not part of this
    repository and is a parameter of the semantics), and the two operations
    on [py::list].  A program is run against an arbitrary engine; the run
    yields the outcome, the final world and the engine calls made.

    The conversion of a [std::string] to a Python [str] decodes UTF-8 and
    fails on bytes that are not well-formed UTF-8.  The rest of the host
    side is taken to work: the construction of a [py::list], the append of
    an object to it and the conversion of a [bool] succeed (no allocation
    failure).  The host objects are those the binding exchanges: [bool],
    [str] and [list]. *)

From stdpp Require Import gmap strings list fin_maps.

Local Open Scope string_scope.
Local Open Scope list_scope.

(** ** Host objects *)

(** Address of a list object on the host heap. *)
Abbreviation loc := positive.

(** The Python objects that cross this binding: [bool], [str], and
    references to [list] objects.  Strings and booleans are immutable and
    are values; a list is mutable and is known by its address. *)
Inductive py_object : Type :=
| PyBool (b : bool)
| PyStr (s : string)
| PyList (l : loc).

#[export] Instance py_object_eq_dec : EqDecision py_object.
Proof. solve_decision. Defined.

(** The host heap: the contents of every live list object. *)
Abbreviation py_heap := (gmap loc (list py_object)).

(** *** Conversion of a [std::string] to a [str] *)

(** [lo <= b <= hi] on byte values. *)
Definition in_range (lo hi b : N) : bool := ((lo <=? b) && (b <=? hi))%N.

(** A continuation byte of a UTF-8 sequence. *)
Definition continuation (b : N) : bool := in_range 0x80 0xBF b.

(** The second byte of a sequence of three: no overlong form after [E0],
    no surrogate after [ED]. *)
Definition second_of_three (b1 b2 : N) : bool :=
  if (b1 =? 0xE0)%N then in_range 0xA0 0xBF b2
  else if (b1 =? 0xED)%N then in_range 0x80 0x9F b2
  else continuation b2.

(** The second byte of a sequence of four: no overlong form after [F0],
    nothing above U+10FFFF after [F4]. *)
Definition second_of_four (b1 b2 : N) : bool :=
  if (b1 =? 0xF0)%N then in_range 0x90 0xBF b2
  else if (b1 =? 0xF4)%N then in_range 0x80 0x8F b2
  else continuation b2.

(** Well-formed UTF-8, as the strict decoder of Python takes it: sequences
    of one to four bytes, shortest form only, no surrogates, nothing above
    U+10FFFF. *)
Fixpoint well_formed_utf8 (bs : list N) : bool :=
  match bs with
  | [] => true
  | b1 :: rest1 =>
      if (b1 <=? 0x7F)%N then well_formed_utf8 rest1
      else
        match rest1 with
        | [] => false
        | b2 :: rest2 =>
            if in_range 0xC2 0xDF b1
            then continuation b2 && well_formed_utf8 rest2
            else
              match rest2 with
              | [] => false
              | b3 :: rest3 =>
                  if in_range 0xE0 0xEF b1
                  then second_of_three b1 b2 && continuation b3
                       && well_formed_utf8 rest3
                  else
                    match rest3 with
                    | [] => false
                    | b4 :: rest4 =>
                        in_range 0xF0 0xF4 b1 && second_of_four b1 b2
                        && continuation b3 && continuation b4
                        && well_formed_utf8 rest4
                    end
              end
        end
  end.

(** The bytes of a [std::string] decode. *)
Definition utf8_valid (s : string) : bool :=
  well_formed_utf8 (Ascii.N_of_ascii <$> String.list_ascii_of_string s).

(** pybind11's conversion of a [std::string] to a Python [str], as used
    by [out.append(name)]: the bytes are decoded as UTF-8; a [str] is kept
    here by its UTF-8 bytes; there is no [str] for bytes that do not
    decode. *)
Definition cast (name : string) : option py_object :=
  if utf8_valid name then Some (PyStr name) else None.

(** ** Bridge programs *)

(** What a lambda of the binding can do.  [CallRegisterFont],
    [CallRegisterFonts] and [CallFaceNames] are the three static members of
    [freetype_engine] the file calls; [NewList] is the declaration
    [py::list out;] whose scope is the rest of the program; [Append] is
    the append of a Python object to it; [ThrowErrorAlreadySet] is the
    [throw error_already_set()] of a conversion that has failed. *)
Inductive Bridge (A : Type) : Type :=
| Ret (a : A)
| CallRegisterFont (file_name : string) (k : bool → Bridge A)
| CallRegisterFonts (dir : string) (recurse : bool) (k : bool → Bridge A)
| CallFaceNames (k : list string → Bridge A)
| NewList (k : loc → Bridge A)
| Append (out : loc) (item : py_object) (k : Bridge A)
| ThrowErrorAlreadySet.

Arguments Ret {A} a.
Arguments CallRegisterFont {A} file_name k.
Arguments CallRegisterFonts {A} dir recurse k.
Arguments CallFaceNames {A} k.
Arguments NewList {A} k.
Arguments Append {A} out item k.
Arguments ThrowErrorAlreadySet {A}.

Fixpoint bind {A B : Type} (p : Bridge A) (f : A → Bridge B) : Bridge B :=
  match p with
  | Ret a => f a
  | CallRegisterFont file_name k => CallRegisterFont file_name (λ b, bind (k b) f)
  | CallRegisterFonts dir recurse k => CallRegisterFonts dir recurse (λ b, bind (k b) f)
  | CallFaceNames k => CallFaceNames (λ names, bind (k names) f)
  | NewList k => NewList (λ l, bind (k l) f)
  | Append out item k => Append out item (bind k f)
  | ThrowErrorAlreadySet => ThrowErrorAlreadySet
  end.

#[export] Instance Bridge_ret : MRet Bridge := @Ret.
#[export] Instance Bridge_bind : MBind Bridge := λ A B f p, bind p f.

(** The range-based [for] statement over a vector. *)
Fixpoint for_each {A : Type} (xs : list A) (body : A → Bridge unit) : Bridge unit :=
  match xs with
  | [] => Ret tt
  | x :: rest => body x;; for_each rest body
  end.

(** [py::list out;] and the append of an object as one-step programs. *)
Definition py_list_new : Bridge loc := NewList Ret.
Definition py_list_append (out : loc) (item : py_object) : Bridge unit :=
  Append out item (Ret tt).

(** [out.append(name)] for a [std::string]: the name is converted to a
    [str], which is then appended; when the conversion fails the call
    leaves with [error_already_set] and nothing is appended. *)
Definition py_list_append_string (out : loc) (name : string) : Bridge unit :=
  match cast name with
  | Some item => py_list_append out item
  | None => ThrowErrorAlreadySet
  end.

(** The static members of [mapnik::freetype_engine], as one-step programs. *)
Module freetype_engine.
Definition register_font (file_name : string) : Bridge bool :=
  CallRegisterFont file_name Ret.
Definition register_fonts (dir : string) (recurse : bool) : Bridge bool :=
  CallRegisterFonts dir recurse Ret.
Definition face_names : Bridge (list string) :=
  CallFaceNames Ret.
End freetype_engine.

(** ** The four lambdas of [export_font_engine] *)

(** [[](std::string const& file_name)
      { return freetype_engine::register_font(file_name); }] *)
Definition register_font (file_name : string) : Bridge bool :=
  freetype_engine.register_font file_name.

(** [[](std::string const& dir)
      { return freetype_engine::register_fonts(dir, false); }] *)
Definition register_fonts1 (dir : string) : Bridge bool :=
  freetype_engine.register_fonts dir false.

(** [[](std::string const& dir, bool recurse)
      { return freetype_engine::register_fonts(dir, recurse); }] *)
Definition register_fonts2 (dir : string) (recurse : bool) : Bridge bool :=
  freetype_engine.register_fonts dir recurse.

(** [[]() { py::list out;
            for (auto const& name : freetype_engine::face_names())
              { out.append(name); }
            return out; }] *)
Definition face_names : Bridge loc :=
  out ← py_list_new;
  names ← freetype_engine.face_names;
  for_each names (λ name, py_list_append_string out name);;
  mret out.

(** ** Running a program against an engine *)

(** A C++ call either returns a value or leaves with an exception. *)
Inductive outcome (E A : Type) : Type :=
| Returned (a : A)
| Raised (e : E).

Arguments Returned {E A} a.
Arguments Raised {E A} e.

Definition raises {E A : Type} (o : outcome E A) : Prop :=
  match o with Raised _ => True | Returned _ => False end.

(** Conversion of a returned value; an exception passes as it is. *)
Definition outcome_map {E A B : Type} (g : A → B) (o : outcome E A) : outcome E B :=
  match o with
  | Returned a => Returned (g a)
  | Raised e => Raised e
  end.

(** What a lambda can leave with: an exception of the engine, or
    pybind11's [error_already_set], which here carries the
    [UnicodeDecodeError] of a failed conversion. *)
Inductive cpp_exception (E : Type) : Type :=
| EngineError (e : E)
| ErrorAlreadySet.

Arguments EngineError {E} e.
Arguments ErrorAlreadySet {E}.

(** An outcome of the engine as an outcome of the lambda that called it. *)
Definition from_engine {E A : Type} (o : outcome E A) : outcome (cpp_exception E) A :=
  match o with
  | Returned a => Returned a
  | Raised e => Raised (EngineError e)
  end.

(** [mapnik::freetype_engine] as this file uses it: three static member
    functions over the engine's process-wide state [S], each of which may
    change that state and may throw an exception of type [E].  The code of
    the engine lives in the mapnik library, so an engine is a parameter. *)
Record engine (S E : Type) : Type := Engine {
  engine_register_font : string → S → outcome E bool * S;
  engine_register_fonts : string → bool → S → outcome E bool * S;
  engine_face_names : S → outcome E (list string) * S
}.

Arguments Engine {S E} _ _ _.
Arguments engine_register_font {S E} _ _ _.
Arguments engine_register_fonts {S E} _ _ _.
Arguments engine_face_names {S E} _ _.

(** The engine calls a run makes, in order, with their arguments. *)
Inductive engine_call : Type :=
| RegisterFont (file_name : string)
| RegisterFonts (dir : string) (recurse : bool)
| FaceNames.

(** The world a call runs in: the engine's state and the host heap. *)
Record world (S : Type) : Type := World {
  engine_state : S;
  heap : py_heap
}.

Arguments World {S} _ _.
Arguments engine_state {S} _.
Arguments heap {S} _.

Definition set_engine_state {S : Type} (s : S) (w : world S) : world S :=
  World s (heap w).
Definition set_heap {S : Type} (h : py_heap) (w : world S) : world S :=
  World (engine_state w) h.

(** What a run leaves behind. *)
Record result (S E A : Type) : Type := Result {
  res : outcome E A;
  final : world S;
  calls : list engine_call
}.

Arguments Result {S E A} _ _ _.
Arguments res {S E A} _.
Arguments final {S E A} _.
Arguments calls {S E A} _.

Section run.
Context {S E : Type} (eng : engine S E).

(** One engine call: the engine runs on its state; an exception leaves
    the program at once (no lambda of the file has a handler), a value is
    handed to the rest of the program. *)
Definition perform {X A : Type} (c : engine_call)
    (op : S → outcome E X * S)
    (k : X → world S → result S (cpp_exception E) A)
    (w : world S) : result S (cpp_exception E) A :=
  let '(o, s) := op (engine_state w) in
  match o with
  | Raised e => Result (Raised (EngineError e)) (set_engine_state s w) [c]
  | Returned x =>
      let r := k x (set_engine_state s w) in
      Result (res r) (final r) (c :: calls r)
  end.

(** [NewList] allocates an empty list at an unused address; when the
    program leaves with an exception the destructor of the [py::list]
    drops it again.  [Append] on an address that holds no list changes
    nothing; no program of the file does that. *)
Fixpoint exec {A : Type} (p : Bridge A) (w : world S)
    : result S (cpp_exception E) A :=
  match p with
  | Ret a => Result (Returned a) w []
  | CallRegisterFont file_name k =>
      perform (RegisterFont file_name)
              (engine_register_font eng file_name) (λ b, exec (k b)) w
  | CallRegisterFonts dir recurse k =>
      perform (RegisterFonts dir recurse)
              (engine_register_fonts eng dir recurse) (λ b, exec (k b)) w
  | CallFaceNames k =>
      perform FaceNames (engine_face_names eng) (λ names, exec (k names)) w
  | NewList k =>
      let l := fresh (dom (heap w)) in
      let r := exec (k l) (set_heap (<[l := []]> (heap w)) w) in
      match res r with
      | Returned _ => r
      | Raised e =>
          Result (Raised e) (set_heap (delete l (heap (final r))) (final r))
                 (calls r)
      end
  | Append out item k =>
      exec k (set_heap (alter (λ items, items ++ [item]) out (heap w)) w)
  | ThrowErrorAlreadySet => Result (Raised ErrorAlreadySet) w []
  end.
End run.

(** ** The binding table built by [export_font_engine] *)

(** The C++ parameter types that occur in the bound lambdas. *)
Inductive cpp_type : Type :=
| cpp_string
| cpp_bool.

(** pybind11's argument loaders for those types, on the host objects of
    this model: a [str] loads as [std::string], a [bool] as [bool], and
    nothing else does. *)
Definition load_string (o : py_object) : option string :=
  match o with PyStr s => Some s | _ => None end.
Definition load_bool (o : py_object) : option bool :=
  match o with PyBool b => Some b | _ => None end.

(** A lambda wrapped for the host: its parameter types, and the call
    itself, which loads the arguments, runs the lambda and converts what
    it returns.  [None] means that the arguments do not load, and
    overload resolution moves on. *)
Record cpp_function : Type := CppFunction {
  signature : list cpp_type;
  invoke : list py_object → option (Bridge py_object)
}.

(** The wrapper of a lambda [(std::string const&) -> bool]. *)
Definition wrap_string (f : string → Bridge bool) : cpp_function :=
  CppFunction [cpp_string]
    (λ args, match args with
             | [a] => s ← load_string a; Some (b ← f s; mret (PyBool b))
             | _ => None
             end).

(** The wrapper of a lambda [(std::string const&, bool) -> bool]. *)
Definition wrap_string_bool (f : string → bool → Bridge bool) : cpp_function :=
  CppFunction [cpp_string; cpp_bool]
    (λ args, match args with
             | [a1; a2] =>
                 s ← load_string a1; r ← load_bool a2;
                 Some (b ← f s r; mret (PyBool b))
             | _ => None
             end).

(** The wrapper of a lambda [() -> py::list]. *)
Definition wrap_list (f : Bridge loc) : cpp_function :=
  CppFunction []
    (λ args, match args with
             | [] => Some (l ← f; mret (PyList l))
             | _ => None
             end).

(** One entry of a class: a function bound under a name, static or not. *)
Record function_record : Type := FunctionRecord {
  fn_name : string;
  fn_static : bool;
  fn_function : cpp_function
}.

(** A bound class: its Python name, the constructors bound with
    [py::init], and the functions bound with [def] and [def_static], in
    the order of their definition. *)
Record class_ : Type := Class {
  cls_name : string;
  cls_init : list cpp_function;
  cls_attrs : list function_record
}.

(** [py::class_<T>(m, name)]: a class with nothing bound yet. *)
Definition py_class (name : string) : class_ := Class name [] [].

(** [cls.def_static(name, f)]: a further static function; one of the same
    name that is there already stays, as an earlier overload. *)
Definition def_static (name : string) (f : cpp_function) (cls : class_) : class_ :=
  Class (cls_name cls) (cls_init cls)
        (cls_attrs cls ++ [FunctionRecord name true f]).

(** A Python module: its classes by name. *)
Abbreviation py_module := (gmap string class_).

(** The class [cls] of [export_font_engine], as its four [def_static]
    leave it. *)
Definition FontEngine : class_ :=
  let cls := py_class "FontEngine" in
  let cls := def_static "register_font" (wrap_string register_font) cls in
  let cls := def_static "register_fonts" (wrap_string register_fonts1) cls in
  let cls := def_static "register_fonts" (wrap_string_bool register_fonts2) cls in
  let cls := def_static "face_names" (wrap_list face_names) cls in
  cls.

(** [void export_font_engine(py::module const& m)] *)
Definition export_font_engine (m : py_module) : py_module :=
  <[cls_name FontEngine := FontEngine]> m.

(** ** Calling a bound function from the host *)

(** The functions a class holds under a name, in the order of definition. *)
Definition overloads (cls : class_) (name : string) : list function_record :=
  filter (λ f, fn_name f = name) (cls_attrs cls).

(** Overload resolution for a call through the class, with no instance:
    the first static function whose loaders accept the arguments.  (A
    function that is not static would need an instance first.) *)
Fixpoint dispatch (fs : list function_record) (args : list py_object)
    : option (Bridge py_object) :=
  match fs with
  | [] => None
  | f :: rest =>
      match (if fn_static f then invoke (fn_function f) args else None) with
      | Some p => Some p
      | None => dispatch rest args
      end
  end.

Inductive resolution : Type :=
| NoAttribute
| NoMatch
| Invoke (p : Bridge py_object).

Definition resolve (cls : class_) (name : string) (args : list py_object)
    : resolution :=
  match overloads cls name with
  | [] => NoAttribute
  | fs => match dispatch fs args with
          | None => NoMatch
          | Some p => Invoke p
          end
  end.

(** What the host sees raised: the binding layer's own two errors, a
    C++ exception carried across with its content as it is, or the
    [UnicodeDecodeError] of a conversion that has failed. *)
Inductive py_exception (E : Type) : Type :=
| AttributeError
| TypeError
| Translated (e : E)
| UnicodeDecodeError.

Arguments AttributeError {E}.
Arguments TypeError {E}.
Arguments Translated {E} e.
Arguments UnicodeDecodeError {E}.

Definition translate {E A : Type} (o : outcome E A) : outcome (py_exception E) A :=
  match o with
  | Returned a => Returned a
  | Raised e => Raised (Translated e)
  end.

(** What the host sees of the way a lambda ended: an exception of the
    engine is carried across, [error_already_set] becomes the Python error
    it holds. *)
Definition surface {E A : Type} (o : outcome (cpp_exception E) A)
    : outcome (py_exception E) A :=
  match o with
  | Returned a => Returned a
  | Raised (EngineError e) => Raised (Translated e)
  | Raised ErrorAlreadySet => Raised UnicodeDecodeError
  end.

(** A call [cls.name(args...)] from Python. *)
Definition call {S E : Type} (eng : engine S E) (cls : class_) (name : string)
    (args : list py_object) (w : world S) : result S (py_exception E) py_object :=
  match resolve cls name args with
  | NoAttribute => Result (Raised AttributeError) w []
  | NoMatch => Result (Raised TypeError) w []
  | Invoke p =>
      let r := exec eng p w in
      Result (surface (res r)) (final r) (calls r)
  end.

(** ** The engine as the specification describes it *)

Module SpecEngine.

(** Modelled from the spec: what a path can name on disk.  The code of
    [mapnik::freetype_engine] is missing; the spec speaks of "a single
    font file on disk" whose faces registration makes "available by
    name", and of "a directory to scan" with "subdirectories".  The
    entries of a directory are kept in the order a scan meets them. *)
Inductive node : Type :=
| FontFile (faces : list string)
| Directory (entries : dir_entries)
with dir_entries : Type :=
| no_entries
| entry (name : string) (n : node) (rest : dir_entries).

(** Modelled from the spec: the state the engine owns, missing with the
    engine's code: what is on disk, and "which fonts are registered,
    which faces exist" as "an ordered sequence of strings". *)
Record state : Type := State {
  disk : gmap string node;
  registry : list string
}.

Section policy.
Context {E : Type}.

(** Modelled from the spec: the three points the spec leaves to the
    engine, whose code is missing: which files a scan takes ("every
    eligible file", "the engine's own file-discovery policy"), whether
    registering a face again "is a no-op or duplicates an entry", and
    what happens for a path that names nothing of the expected kind
    ("exception vs. false"). *)
Variable eligible : string → bool.
Variable keep_duplicates : bool.
Variable on_missing : outcome E bool.

(** Modelled from the spec: registration of one face, missing with
    the engine's code: the face becomes "available by name"; a face
    that is there already is entered again or not, by policy. *)
Definition add_face (reg : list string) (face : string) : list string :=
  if keep_duplicates then reg ++ [face]
  else if bool_decide (face ∈ reg) then reg
  else reg ++ [face].

(** Modelled from the spec: registration of the faces of a file, or of
    the files of a scan, one after the other; missing with the engine's
    code. *)
Definition add_faces (reg : list string) (faces : list string) : list string :=
  foldl add_face reg faces.

(** Modelled from the spec: the scan of a directory, missing with the
    engine's code: "every eligible file found in the directory (and
    its subdirectories if recurse is true)". *)
Fixpoint scan (recurse : bool) (entries : dir_entries) : list string :=
  match entries with
  | no_entries => []
  | entry name (FontFile faces) rest =>
      (if eligible name then faces else []) ++ scan recurse rest
  | entry name (Directory sub) rest =>
      (if recurse then scan recurse sub else []) ++ scan recurse rest
  end.

(** Modelled from the spec: the engine's [register_font], whose code
    is missing: it registers the faces of the file and returns "true =
    at least one face registered from the file". *)
Definition register_font (path : string) (st : state) : outcome E bool * state :=
  match disk st !! path with
  | Some (FontFile faces) =>
      (Returned (bool_decide (faces ≠ [])),
       State (disk st) (add_faces (registry st) faces))
  | _ => (on_missing, st)
  end.

(** Modelled from the spec: the engine's [register_fonts], whose code
    is missing: "identical contract to register_font, but operating
    over every eligible file found in the directory". *)
Definition register_fonts (path : string) (recurse : bool) (st : state)
    : outcome E bool * state :=
  match disk st !! path with
  | Some (Directory entries) =>
      let faces := scan recurse entries in
      (Returned (bool_decide (faces ≠ [])),
       State (disk st) (add_faces (registry st) faces))
  | _ => (on_missing, st)
  end.

(** Modelled from the spec: the engine's [face_names], whose code is
    missing: "the engine's current registered-face enumeration". *)
Definition face_names (st : state) : outcome E (list string) * state :=
  (Returned (registry st), st).

(** Modelled from the spec: the three routines of the "collaborator
    interface consumed", missing with the engine's code. *)
Definition spec_engine : engine state E :=
  Engine register_font register_fonts face_names.
End policy.

End SpecEngine.

(** ** The calls the host can make *)

(** The four well-typed calls into the class, one per bound lambda. *)
Inductive host_call : Type :=
| HRegisterFont (file_name : string)
| HRegisterFonts1 (dir : string)
| HRegisterFonts2 (dir : string) (recurse : bool)
| HFaceNames.

Definition method_name (c : host_call) : string :=
  match c with
  | HRegisterFont _ => "register_font"
  | HRegisterFonts1 _ | HRegisterFonts2 _ _ => "register_fonts"
  | HFaceNames => "face_names"
  end.

Definition arguments (c : host_call) : list py_object :=
  match c with
  | HRegisterFont file_name => [PyStr file_name]
  | HRegisterFonts1 dir => [PyStr dir]
  | HRegisterFonts2 dir recurse => [PyStr dir; PyBool recurse]
  | HFaceNames => []
  end.

(** The exception of an outcome, if it is one. *)
Definition failure {E A : Type} (o : outcome E A) : option E :=
  match o with
  | Raised e => Some e
  | Returned _ => None
  end.

(** The engine routine a host call stands for, with the arguments the
    source passes, and what that routine does on an engine state as far as
    failing goes: the exception it throws, if any, and the state it
    leaves. *)
Definition engine_call_of (c : host_call) : engine_call :=
  match c with
  | HRegisterFont file_name => RegisterFont file_name
  | HRegisterFonts1 dir => RegisterFonts dir false
  | HRegisterFonts2 dir recurse => RegisterFonts dir recurse
  | HFaceNames => FaceNames
  end.

Definition engine_failure {S E : Type} (eng : engine S E) (c : engine_call)
    (s : S) : option E * S :=
  match c with
  | RegisterFont file_name =>
      let '(o, s') := engine_register_font eng file_name s in (failure o, s')
  | RegisterFonts dir recurse =>
      let '(o, s') := engine_register_fonts eng dir recurse s in (failure o, s')
  | FaceNames =>
      let '(o, s') := engine_face_names eng s in (failure o, s')
  end.

(** Whether the conversion of a name fails in a call of the engine routine
    [c] on the engine state [s]: only the enumeration hands names to the
    host, and the conversion fails when it returns a name that is not
    well-formed UTF-8. *)
Definition conversion_failure {S E : Type} (eng : engine S E) (c : engine_call)
    (s : S) : bool :=
  match c with
  | FaceNames =>
      match engine_face_names eng s with
      | (Returned names, _) => negb (forallb utf8_valid names)
      | (Raised _, _) => false
      end
  | _ => false
  end.

(** The host list a run of [face_names] has returned, read from the
    world the run has left; nothing if the run has raised. *)
Definition returned_list {S E : Type} (r : result S E loc) : option (list py_object) :=
  match res r with
  | Returned out => heap (final r) !! out
  | Raised _ => None
  end.

(** The faces the host finds registered in a world: the items of the list
    that a call of [face_names()] made there returns. *)
Definition listed_faces {S E : Type} (eng : engine S E) (w : world S)
    : list py_object :=
  default [] (returned_list (exec eng face_names w)).

(** ** A sample installation *)

(** A disk with a font file of two faces, and a font directory that has
    one font file of its own and one more in a subdirectory. *)
Definition sample_disk : gmap string SpecEngine.node :=
  {[ "/test.ttf" := SpecEngine.FontFile ["TestFace"; "TestFace Bold"];
     "/fonts" :=
       SpecEngine.Directory
         (SpecEngine.entry "DejaVuSans.ttf" (SpecEngine.FontFile ["DejaVu Sans Book"])
            (SpecEngine.entry "extra"
               (SpecEngine.Directory
                  (SpecEngine.entry "Unifont.ttf" (SpecEngine.FontFile ["Unifont Medium"])
                     SpecEngine.no_entries))
               SpecEngine.no_entries)) ]}.

(** The world at start: that disk, two faces registered, no host list. *)
Definition sample_world : world SpecEngine.state :=
  World (SpecEngine.State sample_disk ["Unifont Medium"; "DejaVu Sans Book"]) ∅.

(** Two engines over it, with a C++ exception known by its message: both
    take every file of a scan and keep one entry per face; for a path that
    names nothing the first returns false and the second throws. *)
Definition lenient_engine : engine SpecEngine.state string :=
  SpecEngine.spec_engine (λ _, true) false (Returned false).

Definition strict_engine : engine SpecEngine.state string :=
  SpecEngine.spec_engine (λ _, true) false (Raised "no such file").

(** A font file with a face whose name is the one byte [FF], which is not
    UTF-8, next to a face named "TestFace"; a world with that file on disk
    and nothing registered; and a world in which such a name is
    registered. *)
Definition undecodable_name : string := String (Ascii.ascii_of_N 255) "".

Definition odd_disk : gmap string SpecEngine.node :=
  {[ "/odd.pcf" := SpecEngine.FontFile ["TestFace"; undecodable_name] ]}.

Definition odd_world : world SpecEngine.state :=
  World (SpecEngine.State odd_disk []) ∅.

Definition odd_registry_world : world SpecEngine.state :=
  World (SpecEngine.State sample_disk ["Arial"; undecodable_name]) ∅.

(** ** A host session *)

(** A script that makes the well-typed calls [cs] one after the other,
    going on after a call that raises (as a script does that handles the
    exception): the world it ends in and the engine calls made, in
    order. *)
Fixpoint session {S E : Type} (eng : engine S E) (cs : list host_call)
    (w : world S) : world S * list engine_call :=
  match cs with
  | [] => (w, [])
  | c :: rest =>
      let r := call eng FontEngine (method_name c) (arguments c) w in
      let '(w', later) := session eng rest (final r) in
      (w', calls r ++ later)
  end.

(** The engine's own routines, called directly one after the other: the
    state the engine ends in. *)
Definition engine_run {S E : Type} (eng : engine S E) (cs : list engine_call)
    (s : S) : S :=
  foldl (λ s c, (engine_failure eng c s).2) s cs.

(** * Properties *)

(** ** Running the lambdas *)

Section exec_facts.
Context {S E : Type} (eng : engine S E).

Lemma set_heap_heap (w : world S) : set_heap (heap w) w = w.
Proof. by destruct w. Qed.

Lemma fresh_loc_unused (h : py_heap) : h !! fresh (dom h) = None.
Proof. apply not_elem_of_dom, is_fresh. Qed.

(** [out.append(name)], by whether the name converts. *)
Lemma py_list_append_string_valid (out : loc) (name : string) :
  utf8_valid name = true →
  py_list_append_string out name = py_list_append out (PyStr name).
Proof. intros Hname. unfold py_list_append_string, cast. by rewrite Hname. Qed.

Lemma py_list_append_string_invalid (out : loc) (name : string) :
  utf8_valid name = false →
  py_list_append_string out name = ThrowErrorAlreadySet.
Proof. intros Hname. unfold py_list_append_string, cast. by rewrite Hname. Qed.

(** The loop of [face_names] calls nothing in the engine and touches no
    list but the one at [out], to which it appends; when every name
    converts it returns, having appended the names as [str], in order;
    when one does not it leaves with [error_already_set]. *)
Lemma exec_append_loop (names : list string) (out : loc) (w : world S) :
  ∃ appended : list py_object,
    exec eng (for_each names (λ name, py_list_append_string out name)) w
    = Result (if forallb utf8_valid names then Returned tt
              else Raised ErrorAlreadySet)
             (set_heap (alter (λ items, items ++ appended) out (heap w)) w)
             []
    ∧ (forallb utf8_valid names = true → appended = PyStr <$> names).
Proof.
  revert w. induction names as [|name names IH]; intros w.
  - exists []. split; [|done]. cbn. f_equal.
    rewrite alter_id; [apply symmetry, set_heap_heap|].
    intros items _. apply app_nil_r.
  - cbn [for_each forallb].
    destruct (utf8_valid name) eqn:Hname.
    + rewrite (py_list_append_string_valid out name Hname).
      cbn [py_list_append mbind Bridge_bind bind exec andb].
      destruct (IH (set_heap (alter (λ items, items ++ [PyStr name]) out (heap w)) w))
        as (appended & -> & Hall).
      exists (PyStr name :: appended). split.
      * f_equal. destruct w as [s h]. unfold set_heap. cbn. f_equal.
        rewrite alter_alter_eq. apply alter_ext. intros items _.
        cbn. by rewrite <-app_assoc.
      * intros Hvalid. by rewrite (Hall Hvalid).
    + rewrite (py_list_append_string_invalid out name Hname).
      exists []. split; [|done]. cbn. f_equal.
      rewrite alter_id; [apply symmetry, set_heap_heap|].
      intros items _. apply app_nil_r.
Qed.

(** A conversion of the returned value at the end of a program changes
    nothing else of the run. *)
Lemma exec_bind_ret {A B : Type} (p : Bridge A) (g : A → B) (w : world S) :
  exec eng (p ≫= λ a, mret (g a)) w
  = Result (outcome_map g (res (exec eng p w)))
           (final (exec eng p w)) (calls (exec eng p w)).
Proof.
  revert w. unfold mbind, Bridge_bind, mret, Bridge_ret.
  induction p as [a|f k IH|d r k IH|k IH|k IH|out item k IH|]; intros w; cbn.
  - done.
  - unfold perform. destruct (engine_register_font eng f (engine_state w)) as [[b|e] s]; cbn; [|done].
    by rewrite IH.
  - unfold perform. destruct (engine_register_fonts eng d r (engine_state w)) as [[b|e] s]; cbn; [|done].
    by rewrite IH.
  - unfold perform. destruct (engine_face_names eng (engine_state w)) as [[names|e] s]; cbn; [|done].
    by rewrite IH.
  - rewrite IH. cbn.
    by destruct (exec eng (k (fresh (dom (heap w)))) _) as [[a|e] wf cs].
  - apply IH.
  - done.
Qed.

(** A run of [face_names], in full. *)
Lemma exec_face_names (w : world S) :
  exec eng face_names w
  = match engine_face_names eng (engine_state w) with
    | (Returned names, s) =>
        if forallb utf8_valid names
        then
          let out := fresh (dom (heap w)) in
          Result (Returned out) (World s (<[out := PyStr <$> names]> (heap w)))
                 [FaceNames]
        else Result (Raised ErrorAlreadySet) (World s (heap w)) [FaceNames]
    | (Raised e, s) =>
        Result (Raised (EngineError e)) (World s (heap w)) [FaceNames]
    end.
Proof.
  destruct w as [s0 h]. cbn. unfold perform. cbn.
  destruct (engine_face_names eng s0) as [[names|e] s]; cbn.
  - rewrite (exec_bind_ret _ (λ _, fresh (dom h))).
    destruct (exec_append_loop names (fresh (dom h))
                (set_engine_state s (set_heap (<[fresh (dom h) := []]> h) (World s0 h))))
      as (appended & -> & Hall).
    destruct (forallb utf8_valid names); cbn.
    + rewrite (Hall eq_refl). unfold set_heap, set_engine_state. cbn.
      by rewrite alter_insert_eq.
    + unfold set_heap, set_engine_state. cbn.
      rewrite delete_alter_eq.
      by rewrite delete_insert_id by apply fresh_loc_unused.
  - unfold set_heap, set_engine_state. cbn.
    by rewrite delete_insert_id by apply fresh_loc_unused.
Qed.

(** A run of one engine registration call. *)
Lemma exec_engine_register_font (file_name : string) (w : world S) :
  exec eng (freetype_engine.register_font file_name) w
  = Result (from_engine (engine_register_font eng file_name (engine_state w)).1)
           (World (engine_register_font eng file_name (engine_state w)).2 (heap w))
           [RegisterFont file_name].
Proof.
  cbn. unfold perform.
  by destruct (engine_register_font eng file_name (engine_state w)) as [[b|e] s].
Qed.

Lemma exec_engine_register_fonts (dir : string) (recurse : bool) (w : world S) :
  exec eng (freetype_engine.register_fonts dir recurse) w
  = Result (from_engine (engine_register_fonts eng dir recurse (engine_state w)).1)
           (World (engine_register_fonts eng dir recurse (engine_state w)).2 (heap w))
           [RegisterFonts dir recurse].
Proof.
  cbn. unfold perform.
  by destruct (engine_register_fonts eng dir recurse (engine_state w)) as [[b|e] s].
Qed.

(** Overload resolution of the four well-typed host calls. *)
Lemma resolve_register_font (file_name : string) :
  resolve FontEngine "register_font" [PyStr file_name]
  = Invoke (register_font file_name ≫= λ b, mret (PyBool b)).
Proof. reflexivity. Qed.

Lemma resolve_register_fonts1 (dir : string) :
  resolve FontEngine "register_fonts" [PyStr dir]
  = Invoke (register_fonts1 dir ≫= λ b, mret (PyBool b)).
Proof. reflexivity. Qed.

Lemma resolve_register_fonts2 (dir : string) (recurse : bool) :
  resolve FontEngine "register_fonts" [PyStr dir; PyBool recurse]
  = Invoke (register_fonts2 dir recurse ≫= λ b, mret (PyBool b)).
Proof. reflexivity. Qed.

Lemma resolve_face_names :
  resolve FontEngine "face_names" []
  = Invoke (face_names ≫= λ l, mret (PyList l)).
Proof. reflexivity. Qed.

(** A host call that resolves to a lambda followed by the conversion of
    its result. *)
Lemma call_resolved {A : Type} (name : string) (args : list py_object)
    (p : Bridge A) (g : A → py_object) (w : world S) :
  resolve FontEngine name args = Invoke (p ≫= λ a, mret (g a)) →
  call eng FontEngine name args w
  = Result (surface (outcome_map g (res (exec eng p w))))
           (final (exec eng p w)) (calls (exec eng p w)).
Proof. intros Hres. unfold call. by rewrite Hres, exec_bind_ret. Qed.

(** An outcome of the engine, converted by the lambda and seen from the
    host. *)
Lemma surface_from_engine {A B : Type} (g : A → B) (o : outcome E A) :
  surface (outcome_map g (from_engine o)) = translate (outcome_map g o).
Proof. by destruct o. Qed.

(** The two-argument [register_fonts] from the host. *)
Lemma call_register_fonts2 (dir : string) (recurse : bool) (w : world S) :
  call eng FontEngine "register_fonts" [PyStr dir; PyBool recurse] w
  = Result (translate (outcome_map PyBool
              (engine_register_fonts eng dir recurse (engine_state w)).1))
           (World (engine_register_fonts eng dir recurse (engine_state w)).2 (heap w))
           [RegisterFonts dir recurse].
Proof.
  rewrite (call_resolved _ _ _ _ w (resolve_register_fonts2 dir recurse)).
  unfold register_fonts2. rewrite exec_engine_register_fonts. cbn.
  by rewrite surface_from_engine.
Qed.

(** [register_font] from the host. *)
Lemma call_register_font (file_name : string) (w : world S) :
  call eng FontEngine "register_font" [PyStr file_name] w
  = Result (translate (outcome_map PyBool
              (engine_register_font eng file_name (engine_state w)).1))
           (World (engine_register_font eng file_name (engine_state w)).2 (heap w))
           [RegisterFont file_name].
Proof.
  rewrite (call_resolved _ _ _ _ w (resolve_register_font file_name)).
  unfold register_font. rewrite exec_engine_register_font. cbn.
  by rewrite surface_from_engine.
Qed.

(** The one-argument [register_fonts] from the host. *)
Lemma call_register_fonts1 (dir : string) (w : world S) :
  call eng FontEngine "register_fonts" [PyStr dir] w
  = Result (translate (outcome_map PyBool
              (engine_register_fonts eng dir false (engine_state w)).1))
           (World (engine_register_fonts eng dir false (engine_state w)).2 (heap w))
           [RegisterFonts dir false].
Proof.
  rewrite (call_resolved _ _ _ _ w (resolve_register_fonts1 dir)).
  unfold register_fonts1. rewrite exec_engine_register_fonts. cbn.
  by rewrite surface_from_engine.
Qed.

(** [face_names] from the host. *)
Lemma call_face_names (w : world S) :
  call eng FontEngine "face_names" [] w
  = match engine_face_names eng (engine_state w) with
    | (Returned names, s) =>
        if forallb utf8_valid names
        then
          let out := fresh (dom (heap w)) in
          Result (Returned (PyList out))
                 (World s (<[out := PyStr <$> names]> (heap w))) [FaceNames]
        else Result (Raised UnicodeDecodeError) (World s (heap w)) [FaceNames]
    | (Raised e, s) =>
        Result (Raised (Translated e)) (World s (heap w)) [FaceNames]
    end.
Proof.
  rewrite (call_resolved _ _ _ _ w resolve_face_names), exec_face_names.
  destruct (engine_face_names eng (engine_state w)) as [[names|e] s]; [|done].
  by destruct (forallb utf8_valid names).
Qed.

End exec_facts.

(** ** The bridge over an arbitrary engine *)

Section bridge.
Context {S E : Type} (eng : engine S E).

(** C1: for every string [file_name], [register_font(file_name)] makes one
    call of the engine's single-file registration routine, with
    [file_name] as it was given, and hands back what that call gives: at
    the lambda, the engine's boolean; at the host, the same boolean as a
    Python [bool].  Nothing of the world changes but the engine's state, as
    the engine leaves it. *)
Theorem register_font_forwards (file_name : string) (w : world S) :
  let o := (engine_register_font eng file_name (engine_state w)).1 in
  let s := (engine_register_font eng file_name (engine_state w)).2 in
  exec eng (register_font file_name) w
    = Result (from_engine o) (World s (heap w)) [RegisterFont file_name]
  ∧ call eng FontEngine "register_font" [PyStr file_name] w
    = Result (translate (outcome_map PyBool o)) (World s (heap w))
             [RegisterFont file_name].
Proof.
  cbn zeta. unfold register_font. split.
  - apply exec_engine_register_font.
  - rewrite (call_resolved eng _ _ _ _ w (resolve_register_font file_name)).
    unfold register_font. rewrite exec_engine_register_font. cbn.
    by rewrite surface_from_engine.
Qed.

(** C9: for every [dir] and [recurse], the two-argument
    [register_fonts(dir, recurse)] makes one call of the engine's directory
    registration routine, with [dir] and [recurse] as they were given, and
    hands back what that call gives, as [register_font] does. *)
Theorem register_fonts2_forwards (dir : string) (recurse : bool) (w : world S) :
  let o := (engine_register_fonts eng dir recurse (engine_state w)).1 in
  let s := (engine_register_fonts eng dir recurse (engine_state w)).2 in
  exec eng (register_fonts2 dir recurse) w
    = Result (from_engine o) (World s (heap w)) [RegisterFonts dir recurse]
  ∧ call eng FontEngine "register_fonts" [PyStr dir; PyBool recurse] w
    = Result (translate (outcome_map PyBool o)) (World s (heap w))
             [RegisterFonts dir recurse].
Proof.
  cbn zeta. unfold register_fonts2. split.
  - apply exec_engine_register_fonts.
  - rewrite (call_resolved eng _ _ _ _ w (resolve_register_fonts2 dir recurse)).
    unfold register_fonts2. rewrite exec_engine_register_fonts. cbn.
    by rewrite surface_from_engine.
Qed.

(** C2: for every directory string [dir], the one-argument
    [register_fonts(dir)] and the two-argument [register_fonts(dir, false)]
    are the same program; each makes the one engine call
    [register_fonts(dir, false)], with the boolean [false] in the place of
    [recurse]; from the host both calls give the same result and leave the
    same world, so that an enumeration after the one is the enumeration
    after the other. *)
Theorem register_fonts_default_recurse (dir : string) (w : world S) :
  let one := call eng FontEngine "register_fonts" [PyStr dir] w in
  let two := call eng FontEngine "register_fonts" [PyStr dir; PyBool false] w in
  register_fonts1 dir = register_fonts2 dir false
  ∧ calls one = [RegisterFonts dir false]
  ∧ calls two = [RegisterFonts dir false]
  ∧ res one = res two
  ∧ final one = final two
  ∧ call eng FontEngine "face_names" [] (final one)
    = call eng FontEngine "face_names" [] (final two).
Proof.
  cbn zeta.
  rewrite (call_resolved eng _ _ _ _ w (resolve_register_fonts1 dir)).
  rewrite (call_resolved eng _ _ _ _ w (resolve_register_fonts2 dir false)).
  unfold register_fonts1, register_fonts2.
  rewrite exec_engine_register_fonts. cbn.
  by repeat split.
Qed.

(** C3, as amended: every call of [face_names()] for which the engine's
    enumeration returns the sequence [names] asks the engine once, in the
    call itself.  When every name is well-formed UTF-8 the call returns a
    list at an address that held no object before the call; that list
    holds one [str] per name, the strings of [names] in the engine's
    order, nothing added, dropped or moved; every object that was on the
    host heap is as it was; and what the host receives is a reference to a
    Python list.  When some name is not well-formed UTF-8 the call raises
    [UnicodeDecodeError], returns no list, and leaves the host heap as it
    was. *)
Theorem face_names_copies_enumeration (w : world S) (names : list string) (s : S) :
  engine_face_names eng (engine_state w) = (Returned names, s) →
  if forallb utf8_valid names
  then
    ∃ out : loc,
      heap w !! out = None
      ∧ exec eng face_names w
        = Result (Returned out)
                 (World s (<[out := PyStr <$> names]> (heap w))) [FaceNames]
      ∧ call eng FontEngine "face_names" [] w
        = Result (Returned (PyList out))
                 (World s (<[out := PyStr <$> names]> (heap w))) [FaceNames]
  else
    exec eng face_names w
    = Result (Raised ErrorAlreadySet) (World s (heap w)) [FaceNames]
    ∧ call eng FontEngine "face_names" [] w
      = Result (Raised UnicodeDecodeError) (World s (heap w)) [FaceNames].
Proof.
  intros Henum. rewrite call_face_names, exec_face_names, Henum.
  destruct (forallb utf8_valid names); [|done].
  exists (fresh (dom (heap w))). split; [apply fresh_loc_unused|done].
Qed.

(** C4, as amended: for every call of [register_font], of [register_fonts]
    in either form, and of [face_names]: a failure that the engine routine
    behind the call signals is raised at the host as the engine's
    exception, with its content as it is; the call raises without a
    failure of the engine in one case only, a [face_names()] whose
    enumeration holds a name that is not well-formed UTF-8, which raises
    [UnicodeDecodeError]; the engine is called once (no second try); the
    engine's state is left as the engine left it, and on a failure the
    host heap is as it was before the call. *)
Theorem engine_failure_surfaces_unchanged (c : host_call) (w : world S) :
  let r := call eng FontEngine (method_name c) (arguments c) w in
  let thrown := (engine_failure eng (engine_call_of c) (engine_state w)).1 in
  let left := (engine_failure eng (engine_call_of c) (engine_state w)).2 in
  let undecodable := conversion_failure eng (engine_call_of c) (engine_state w) in
  calls r = [engine_call_of c]
  ∧ failure (res r)
    = match thrown with
      | Some e => Some (Translated e)
      | None => if undecodable then Some UnicodeDecodeError else None
      end
  ∧ (raises (res r) ↔ is_Some thrown ∨ undecodable = true)
  ∧ (undecodable = true → c = HFaceNames)
  ∧ engine_state (final r) = left
  ∧ (raises (res r) → heap (final r) = heap w).
Proof.
  cbn zeta. destruct c as [file_name|dir|dir recurse|]; cbn [method_name arguments].
  - rewrite call_register_font. cbn.
    destruct (engine_register_font eng file_name (engine_state w)) as [[b|e] s];
      cbn; repeat split; try done; try (by intros [[? ?]|?]); by eauto.
  - rewrite call_register_fonts1. cbn.
    destruct (engine_register_fonts eng dir false (engine_state w)) as [[b|e] s];
      cbn; repeat split; try done; try (by intros [[? ?]|?]); by eauto.
  - rewrite call_register_fonts2. cbn.
    destruct (engine_register_fonts eng dir recurse (engine_state w)) as [[b|e] s];
      cbn; repeat split; try done; try (by intros [[? ?]|?]); by eauto.
  - rewrite call_face_names. cbn.
    destruct (engine_face_names eng (engine_state w)) as [[names|e] s]; cbn.
    + destruct (forallb utf8_valid names); cbn;
        repeat split; try done; try (by intros [[? ?]|?]); by eauto.
    + repeat split; try done; by eauto.
Qed.


End bridge.

(** ** The bridge over the engine of the specification *)

Section spec_engine.
Context {E : Type}.
Context (eligible : string → bool) (keep_duplicates : bool).
Context (on_missing : outcome E bool).

Local Abbreviation eng := (SpecEngine.spec_engine eligible keep_duplicates on_missing).

Lemma elem_of_add_face (reg : list string) (face x : string) :
  x ∈ SpecEngine.add_face keep_duplicates reg face ↔ x ∈ reg ∨ x = face.
Proof.
  unfold SpecEngine.add_face. destruct keep_duplicates.
  - rewrite elem_of_app, list_elem_of_singleton. tauto.
  - case_bool_decide as Hin.
    + split; [tauto|]. intros [?| ->]; done.
    + rewrite elem_of_app, list_elem_of_singleton. tauto.
Qed.

Lemma elem_of_add_faces (faces reg : list string) (x : string) :
  x ∈ SpecEngine.add_faces keep_duplicates reg faces ↔ x ∈ reg ∨ x ∈ faces.
Proof.
  unfold SpecEngine.add_faces. revert reg.
  induction faces as [|face faces IH]; intros reg; cbn.
  - rewrite elem_of_nil. tauto.
  - rewrite IH, elem_of_add_face, elem_of_cons. tauto.
Qed.

(** A scan that descends finds every face that a scan of the directory
    alone finds. *)
Lemma scan_recurse_superset (entries : SpecEngine.dir_entries) :
  SpecEngine.scan eligible false entries ⊆ SpecEngine.scan eligible true entries.
Proof.
  induction entries as [|name n rest IH]; cbn; [done|].
  destruct n as [faces|sub].
  - intros x. rewrite !elem_of_app. intros [?|?]; [by left|right; by apply IH].
  - intros x Hx. apply elem_of_app. right. by apply IH.
Qed.

(** Registration keeps the names well-formed when the names registered
    and the names added are. *)
Lemma add_faces_valid (reg faces : list string) :
  forallb utf8_valid reg = true →
  forallb utf8_valid faces = true →
  forallb utf8_valid (SpecEngine.add_faces keep_duplicates reg faces) = true.
Proof.
  rewrite !forallb_forall. intros Hreg Hfaces name.
  rewrite <-list_elem_of_In, elem_of_add_faces, !list_elem_of_In.
  intros [?|?]; eauto.
Qed.

(** What the host finds registered: the engine's registry when all of its
    names convert, and nothing when a [face_names()] raises. *)
Lemma listed_faces_registry (st : SpecEngine.state) (h : py_heap) :
  listed_faces eng (World st h)
  = if forallb utf8_valid (SpecEngine.registry st)
    then PyStr <$> SpecEngine.registry st else [].
Proof.
  unfold listed_faces, returned_list. rewrite exec_face_names. cbn.
  destruct (forallb utf8_valid (SpecEngine.registry st)); [|done].
  cbn. by rewrite lookup_insert_eq.
Qed.

(** C5, as amended: for every path [P] that names nothing on disk,
    [register_font(P)] makes the one engine call and ends as the engine
    ends for such a path: a failure surfaces to the caller exactly when
    the engine signals one, with the engine's exception; when the engine
    returns false the caller receives [False]; the registry and the host
    heap are as they were. *)
Theorem register_font_missing_path (st : SpecEngine.state) (h : py_heap) (P : string) :
  SpecEngine.disk st !! P = None →
  let r := call eng FontEngine "register_font" [PyStr P] (World st h) in
  r = Result (translate (outcome_map PyBool on_missing)) (World st h) [RegisterFont P]
  ∧ (raises (res r) ↔ raises on_missing)
  ∧ (res r = Returned (PyBool false) ↔ on_missing = Returned false).
Proof.
  intros Hmissing. cbn zeta. rewrite call_register_font.
  cbn. unfold SpecEngine.register_font. rewrite Hmissing. cbn.
  split; [done|]. destruct on_missing as [[|]|e]; cbn; naive_solver.
Qed.

(** C7, as amended: for every font file path [P] whose file holds a face
    named [face] (the claim's "TestFace" is one such name), when the names
    registered before and the names of the faces of the file are
    well-formed UTF-8: if [register_font(P)] returns [True], then the list
    that a following [face_names()] returns has the string [face] among
    its items. *)
Theorem registered_face_is_listed (st : SpecEngine.state) (h : py_heap)
    (P : string) (faces : list string) (face : string) :
  SpecEngine.disk st !! P = Some (SpecEngine.FontFile faces) →
  face ∈ faces →
  forallb utf8_valid (SpecEngine.registry st) = true →
  forallb utf8_valid faces = true →
  let registered := call eng FontEngine "register_font" [PyStr P] (World st h) in
  res registered = Returned (PyBool true) →
  let listed := call eng FontEngine "face_names" [] (final registered) in
  ∃ (out : loc) (items : list py_object),
    res listed = Returned (PyList out)
    ∧ heap (final listed) !! out = Some items
    ∧ PyStr face ∈ items.
Proof.
  intros Hfile Hface Hreg Hfaces. cbn zeta. rewrite call_register_font.
  cbn. unfold SpecEngine.register_font. rewrite Hfile. cbn. intros _.
  rewrite call_face_names. cbn.
  rewrite (add_faces_valid _ _ Hreg Hfaces).
  exists (fresh (dom h)),
    (PyStr <$> SpecEngine.add_faces keep_duplicates (SpecEngine.registry st) faces).
  cbn. split; [done|]. split; [apply lookup_insert_eq|].
  apply list_elem_of_fmap. exists face. split; [done|].
  apply elem_of_add_faces. by right.
Qed.

(** The registry that [register_fonts] leaves. *)
Lemma registry_after_register_fonts (st : SpecEngine.state) (h : py_heap)
    (D : string) (recurse : bool) :
  SpecEngine.registry
    (engine_state
       (final (call eng FontEngine "register_fonts" [PyStr D; PyBool recurse]
                 (World st h))))
  = match SpecEngine.disk st !! D with
    | Some (SpecEngine.Directory entries) =>
        SpecEngine.add_faces keep_duplicates (SpecEngine.registry st)
          (SpecEngine.scan eligible recurse entries)
    | _ => SpecEngine.registry st
    end.
Proof.
  rewrite call_register_fonts2. cbn. unfold SpecEngine.register_fonts.
  by destruct (SpecEngine.disk st !! D) as [[faces|entries]|].
Qed.

(** The count of distinct elements grows with the set. *)
Lemma remove_dups_length_mono `{EqDecision A} (l k : list A) :
  l ⊆ k → (length (remove_dups l) ≤ length (remove_dups k))%nat.
Proof.
  intros Hsub. apply NoDup_incl_length.
  - apply NoDup_ListNoDup, NoDup_remove_dups.
  - intros x. rewrite <-!list_elem_of_In, !elem_of_remove_dups. apply Hsub.
Qed.

(** C8: for every directory [D] (one with font files in a subdirectory
    among them), from the same world: every face that is registered after
    [register_fonts(D, false)] is registered after
    [register_fonts(D, true)]; so the second registers at least as many
    distinct faces as the first, and returns [True] whenever the first
    does; and when the names registered after the second are well-formed
    UTF-8, every face the host finds listed after the first it finds
    listed after the second. *)
Theorem recursion_registers_superset (st : SpecEngine.state) (h : py_heap) (D : string) :
  let flat := call eng FontEngine "register_fonts" [PyStr D; PyBool false] (World st h) in
  let deep := call eng FontEngine "register_fonts" [PyStr D; PyBool true] (World st h) in
  let registered_flat := SpecEngine.registry (engine_state (final flat)) in
  let registered_deep := SpecEngine.registry (engine_state (final deep)) in
  registered_flat ⊆ registered_deep
  ∧ (length (remove_dups registered_flat)
     ≤ length (remove_dups registered_deep))%nat
  ∧ (res flat = Returned (PyBool true) → res deep = Returned (PyBool true))
  ∧ (forallb utf8_valid registered_deep = true →
       listed_faces eng (final flat) = PyStr <$> registered_flat
       ∧ listed_faces eng (final deep) = PyStr <$> registered_deep
       ∧ listed_faces eng (final flat) ⊆ listed_faces eng (final deep)
       ∧ (length (remove_dups (listed_faces eng (final flat)))
          ≤ length (remove_dups (listed_faces eng (final deep))))%nat).
Proof.
  cbn zeta.
  assert (SpecEngine.registry (engine_state (final (call eng FontEngine
            "register_fonts" [PyStr D; PyBool false] (World st h))))
          ⊆ SpecEngine.registry (engine_state (final (call eng FontEngine
              "register_fonts" [PyStr D; PyBool true] (World st h))))) as Hsub.
  { rewrite !registry_after_register_fonts.
    destruct (SpecEngine.disk st !! D) as [[faces|entries]|]; try done.
    intros name. rewrite !elem_of_add_faces.
    intros [?|?]; [by left|right; by apply scan_recurse_superset]. }
  split; [done|]. split; [by apply remove_dups_length_mono|]. split.
  - rewrite !call_register_fonts2.
    cbn. unfold SpecEngine.register_fonts.
    destruct (SpecEngine.disk st !! D) as [[faces|entries]|]; try done.
    cbn. intros [= Hfound]. do 2 f_equal.
    apply bool_decide_eq_true in Hfound. apply bool_decide_eq_true.
    destruct (SpecEngine.scan eligible false entries) as [|x found] eqn:Hscan; [done|].
    intros Hnil. pose proof (scan_recurse_superset entries x) as Hx.
    rewrite Hscan, Hnil in Hx. apply elem_of_nil in Hx; [done|]. by left.
  - intros Hdeep.
    assert (forallb utf8_valid (SpecEngine.registry (engine_state (final
              (call eng FontEngine "register_fonts" [PyStr D; PyBool false]
                 (World st h))))) = true) as Hflat.
    { apply forallb_forall. intros name Hin%list_elem_of_In%Hsub%list_elem_of_In.
      by apply (proj1 (forallb_forall _ _) Hdeep). }
    revert Hsub Hdeep Hflat. rewrite !call_register_fonts2. cbn [final engine_state].
    intros Hsub Hdeep Hflat. rewrite !listed_faces_registry, Hdeep, Hflat.
    assert (PyStr <$> (SpecEngine.register_fonts eligible keep_duplicates
                         on_missing D false st).2.(SpecEngine.registry)
            ⊆ PyStr <$> (SpecEngine.register_fonts eligible keep_duplicates
                           on_missing D true st).2.(SpecEngine.registry)) as Hlisted.
    { intros x (name & -> & Hin)%list_elem_of_fmap.
      apply list_elem_of_fmap_2, Hsub, Hin. }
    repeat split; try done. by apply remove_dups_length_mono.
Qed.

End spec_engine.
(** ** The exported surface *)

(** A name resolves to something exactly when a function is bound under it. *)
Lemma resolve_attribute (cls : class_) (name : string) (args : list py_object) :
  resolve cls name args ≠ NoAttribute ↔ name ∈ fn_name <$> cls_attrs cls.
Proof.
  unfold resolve. destruct (overloads cls name) as [|f fs] eqn:Hov.
  - split; [done|]. intros (f & -> & Hf)%list_elem_of_fmap.
    assert (f ∈ overloads cls (fn_name f)) as Hin by by apply list_elem_of_filter.
    rewrite Hov in Hin. by apply elem_of_nil in Hin.
  - split; [intros _|intros _; by destruct (dispatch _ _)].
    assert (f ∈ overloads cls name) as [<- Hf]%list_elem_of_filter
      by (rewrite Hov; left).
    by apply list_elem_of_fmap_2.
Qed.

(** C10: the class that [export_font_engine] puts into the module is named
    "FontEngine"; no constructor is bound; every function bound is static,
    so each of the four well-typed calls resolves through the class alone,
    with no instance; the names bound are [register_font],
    [register_fonts] and [face_names] and no other; [register_fonts] is
    bound twice, for one and for two arguments, and resolves for no other
    number of arguments. *)
Theorem FontEngine_surface (m : py_module) :
  export_font_engine m !! "FontEngine" = Some FontEngine
  ∧ cls_name FontEngine = "FontEngine"
  ∧ cls_init FontEngine = []
  ∧ Forall (λ f, fn_static f = true) (cls_attrs FontEngine)
  ∧ (λ f, (fn_name f, signature (fn_function f))) <$> cls_attrs FontEngine
    = [("register_font", [cpp_string]);
       ("register_fonts", [cpp_string]);
       ("register_fonts", [cpp_string; cpp_bool]);
       ("face_names", [])]
  ∧ (∀ c : host_call,
       ∃ p, resolve FontEngine (method_name c) (arguments c) = Invoke p)
  ∧ (∀ name args,
       resolve FontEngine name args ≠ NoAttribute
       ↔ name ∈ ["register_font"; "register_fonts"; "face_names"])
  ∧ (∀ args p,
       resolve FontEngine "register_fonts" args = Invoke p →
       length args = 1 ∨ length args = 2).
Proof.
  split; [apply lookup_insert_eq|]. split; [done|]. split; [done|].
  split; [by repeat constructor|]. split; [done|]. split; [|split].
  - intros [file_name|dir|dir recurse|]; eexists; reflexivity.
  - intros name args. rewrite resolve_attribute. cbn.
    rewrite !elem_of_cons. tauto.
  - intros [|a1 [|a2 [|a3 args]]] p; cbn; try done; eauto.
Qed.

(** ** The conversion on known byte sequences *)

(** Well-formed: ASCII, U+00E9 in two bytes, U+20AC in three, U+1F600 in
    four.  Not well-formed: a lone continuation byte, the overlong [C0 80],
    the surrogate [ED A0 80], [F4 90 80 80] above U+10FFFF, and a sequence
    cut short. *)
Example well_formed_utf8_samples :
  well_formed_utf8 [0x41; 0x72; 0x69; 0x61; 0x6C]%N = true
  ∧ well_formed_utf8 [0xC3; 0xA9]%N = true
  ∧ well_formed_utf8 [0xE2; 0x82; 0xAC]%N = true
  ∧ well_formed_utf8 [0xF0; 0x9F; 0x98; 0x80]%N = true
  ∧ well_formed_utf8 [0x41; 0x80]%N = false
  ∧ well_formed_utf8 [0xC0; 0x80]%N = false
  ∧ well_formed_utf8 [0xED; 0xA0; 0x80]%N = false
  ∧ well_formed_utf8 [0xF4; 0x90; 0x80; 0x80]%N = false
  ∧ well_formed_utf8 [0xE2; 0x82]%N = false
  ∧ utf8_valid "TestFace" = true
  ∧ utf8_valid undecodable_name = false.
Proof. repeat split; by vm_compute. Qed.

(** ** The properties at the sample installation *)

Lemma face_names_copies_enumeration_witness :
  engine_face_names lenient_engine (engine_state sample_world)
  = (Returned ["Unifont Medium"; "DejaVu Sans Book"], engine_state sample_world)
  ∧ forallb utf8_valid ["Unifont Medium"; "DejaVu Sans Book"] = true
  ∧ ∃ out : loc,
      heap sample_world !! out = None
      ∧ exec lenient_engine face_names sample_world
        = Result (Returned out)
            (World (engine_state sample_world)
               (<[out := [PyStr "Unifont Medium"; PyStr "DejaVu Sans Book"]]>
                  (heap sample_world)))
            [FaceNames]
      ∧ call lenient_engine FontEngine "face_names" [] sample_world
        = Result (Returned (PyList out))
            (World (engine_state sample_world)
               (<[out := [PyStr "Unifont Medium"; PyStr "DejaVu Sans Book"]]>
                  (heap sample_world)))
            [FaceNames].
Proof.
  split; [reflexivity|]. split; [by vm_compute|].
  exact (face_names_copies_enumeration lenient_engine sample_world
           ["Unifont Medium"; "DejaVu Sans Book"] (engine_state sample_world)
           eq_refl).
Defined.

(** An enumeration with a name that is not UTF-8: the engine returns the
    names and signals nothing; the call raises [UnicodeDecodeError] and
    the host receives no list. *)
Lemma face_names_undecodable_name_returns_no_list :
  engine_face_names lenient_engine (engine_state odd_registry_world)
  = (Returned ["Arial"; undecodable_name], engine_state odd_registry_world)
  ∧ call lenient_engine FontEngine "face_names" [] odd_registry_world
    = Result (Raised UnicodeDecodeError) odd_registry_world [FaceNames]
  ∧ ¬ ∃ out : loc,
        res (call lenient_engine FontEngine "face_names" [] odd_registry_world)
        = Returned (PyList out).
Proof.
  split; [reflexivity|]. split; [by vm_compute|].
  intros [out Hout]. vm_compute in Hout. discriminate Hout.
Qed.

(** The same call: the engine routine behind it throws nothing, and the
    call raises at the host. *)
Lemma face_names_raises_without_engine_failure :
  (engine_failure lenient_engine (engine_call_of HFaceNames)
     (engine_state odd_registry_world)).1 = None
  ∧ raises (res (call lenient_engine FontEngine (method_name HFaceNames)
                   (arguments HFaceNames) odd_registry_world))
  ∧ ¬ (raises (res (call lenient_engine FontEngine (method_name HFaceNames)
                      (arguments HFaceNames) odd_registry_world))
       ↔ is_Some (engine_failure lenient_engine (engine_call_of HFaceNames)
                    (engine_state odd_registry_world)).1).
Proof.
  split; [reflexivity|]. split; [by vm_compute|].
  intros [Hraises _]. destruct Hraises as [e He]; [by vm_compute|].
  vm_compute in He. discriminate He.
Qed.

(** On a path that names nothing, with an engine that returns false for
    such a path, [register_font] returns [False] to the caller and raises
    nothing. *)
Lemma register_font_missing_path_returns_false :
  SpecEngine.disk (engine_state sample_world) !! "/missing.ttf" = None
  ∧ res (call lenient_engine FontEngine "register_font" [PyStr "/missing.ttf"]
           sample_world)
    = Returned (PyBool false)
  ∧ ¬ raises (res (call lenient_engine FontEngine "register_font"
                     [PyStr "/missing.ttf"] sample_world)).
Proof.
  split; [by vm_compute|]. split; [by vm_compute|].
  vm_compute. tauto.
Qed.

Lemma register_font_missing_path_witness :
  SpecEngine.disk (engine_state sample_world) !! "/missing.ttf" = None
  ∧ call strict_engine FontEngine "register_font" [PyStr "/missing.ttf"] sample_world
    = Result (Raised (Translated "no such file")) sample_world
             [RegisterFont "/missing.ttf"].
Proof.
  split; [by vm_compute|].
  apply (register_font_missing_path (λ _, true) false (Raised "no such file")
           (engine_state sample_world) (heap sample_world) "/missing.ttf").
  by vm_compute.
Defined.


Lemma registered_face_is_listed_witness :
  SpecEngine.disk (engine_state sample_world) !! "/test.ttf"
  = Some (SpecEngine.FontFile ["TestFace"; "TestFace Bold"])
  ∧ "TestFace" ∈ ["TestFace"; "TestFace Bold"]
  ∧ forallb utf8_valid (SpecEngine.registry (engine_state sample_world)) = true
  ∧ forallb utf8_valid ["TestFace"; "TestFace Bold"] = true
  ∧ res (call lenient_engine FontEngine "register_font" [PyStr "/test.ttf"] sample_world)
    = Returned (PyBool true)
  ∧ ∃ (out : loc) (items : list py_object),
      res (call lenient_engine FontEngine "face_names" []
             (final (call lenient_engine FontEngine "register_font"
                       [PyStr "/test.ttf"] sample_world)))
      = Returned (PyList out)
      ∧ heap (final (call lenient_engine FontEngine "face_names" []
                       (final (call lenient_engine FontEngine "register_font"
                                 [PyStr "/test.ttf"] sample_world)))) !! out
        = Some items
      ∧ PyStr "TestFace" ∈ items.
Proof.
  split; [by vm_compute|]. split; [by left|]. split; [by vm_compute|].
  split; [by vm_compute|]. split; [by vm_compute|].
  apply (registered_face_is_listed (λ _, true) false (Returned false)
           (engine_state sample_world) (heap sample_world) "/test.ttf"
           ["TestFace"; "TestFace Bold"] "TestFace").
  - by vm_compute.
  - by left.
  - by vm_compute.
  - by vm_compute.
  - by vm_compute.
Defined.

(** A font file with a face named "TestFace" and a face whose name is not
    UTF-8: [register_font] returns [True], and the [face_names()] that
    follows raises [UnicodeDecodeError] and returns no list. *)
Lemma registered_face_not_listed_after_undecodable_name :
  SpecEngine.disk (engine_state odd_world) !! "/odd.pcf"
  = Some (SpecEngine.FontFile ["TestFace"; undecodable_name])
  ∧ "TestFace" ∈ ["TestFace"; undecodable_name]
  ∧ res (call lenient_engine FontEngine "register_font" [PyStr "/odd.pcf"] odd_world)
    = Returned (PyBool true)
  ∧ res (call lenient_engine FontEngine "face_names" []
           (final (call lenient_engine FontEngine "register_font"
                     [PyStr "/odd.pcf"] odd_world)))
    = Raised UnicodeDecodeError.
Proof.
  split; [by vm_compute|]. split; [by left|]. split; by vm_compute.
Qed.

(** With recursion the scan of the sample font directory registers a face
    that the scan without recursion does not. *)
Example sample_recursion_registers_more :
  listed_faces lenient_engine
    (final (call lenient_engine FontEngine "register_fonts"
              [PyStr "/fonts"; PyBool false] (World (SpecEngine.State sample_disk []) ∅)))
  = [PyStr "DejaVu Sans Book"]
  ∧ listed_faces lenient_engine
      (final (call lenient_engine FontEngine "register_fonts"
                [PyStr "/fonts"; PyBool true] (World (SpecEngine.State sample_disk []) ∅)))
    = [PyStr "DejaVu Sans Book"; PyStr "Unifont Medium"].
Proof. split; by vm_compute. Qed.

(** A failure of the engine at the host: the exception of the strict
    engine for a missing directory, with its message, after one call. *)
Example sample_failure_surfaces :
  call strict_engine FontEngine "register_fonts" [PyStr "/nowhere"] sample_world
  = Result (Raised (Translated "no such file")) sample_world
           [RegisterFonts "/nowhere" false].
Proof. by vm_compute. Qed.

(** ** The two overloads, and what a session of calls does *)

Section surface.
Context {S E : Type} (eng : engine S E).

(** X2: no argument list is accepted by both overloads of
    [register_fonts]; so the order in which the two [def_static] of that
    name stand in the source does not matter to what a call resolves
    to. *)
Theorem register_fonts_overloads_disjoint (args : list py_object) :
  ¬ (is_Some (invoke (wrap_string register_fonts1) args)
     ∧ is_Some (invoke (wrap_string_bool register_fonts2) args))
  ∧ dispatch (reverse (overloads FontEngine "register_fonts")) args
    = dispatch (overloads FontEngine "register_fonts") args.
Proof.
  split.
  - intros [[p1 H1] [p2 H2]].
    destruct args as [|a1 [|a2 [|a3 args]]]; cbn in H1, H2; done.
  - destruct args as [|[b|s|l] [|[r|s2|l2] [|a3 args]]]; reflexivity.
Qed.

(** What a well-typed host call does to the world, by the engine routine
    behind it. *)
Lemma call_host_call_world (c : host_call) (w : world S) :
  let r := call eng FontEngine (method_name c) (arguments c) w in
  calls r = [engine_call_of c]
  ∧ engine_state (final r)
    = (engine_failure eng (engine_call_of c) (engine_state w)).2
  ∧ (∀ (l : loc) (items : list py_object),
       heap w !! l = Some items → heap (final r) !! l = Some items).
Proof.
  cbn zeta. destruct c as [file_name|dir|dir recurse|]; cbn [method_name arguments].
  - rewrite call_register_font. cbn.
    by destruct (engine_register_font eng file_name (engine_state w)) as [[b|e] s].
  - rewrite call_register_fonts1. cbn.
    by destruct (engine_register_fonts eng dir false (engine_state w)) as [[b|e] s].
  - rewrite call_register_fonts2. cbn.
    by destruct (engine_register_fonts eng dir recurse (engine_state w)) as [[b|e] s].
  - rewrite call_face_names. cbn.
    destruct (engine_face_names eng (engine_state w)) as [[names|e] s]; cbn;
      [|done].
    destruct (forallb utf8_valid names); cbn; [|done].
    repeat split. intros l items Hl. rewrite lookup_insert_ne; [done|].
    intros <-. by rewrite fresh_loc_unused in Hl.
Qed.

(** X3: over any session of well-typed calls the bridge keeps no state of
    its own: the engine is called once per host call, in the order of the
    host calls and with their arguments (the one-argument [register_fonts]
    with [false]), also after calls that raised; and the engine ends in the
    state that its own routines reach when they are called directly in
    that order. *)
Theorem session_is_engine_run (cs : list host_call) (w : world S) :
  (session eng cs w).2 = engine_call_of <$> cs
  ∧ engine_state (session eng cs w).1
    = engine_run eng (engine_call_of <$> cs) (engine_state w).
Proof.
  revert w. induction cs as [|c cs IH]; intros w; [done|].
  cbn [session]. destruct (call_host_call_world c w) as (Hcalls & Hstate & _).
  specialize (IH (final (call eng FontEngine (method_name c) (arguments c) w))).
  destruct (session eng cs _) as [w' later]. cbn in IH. destruct IH as [IH1 IH2].
  cbn. by rewrite IH1, IH2, Hcalls, Hstate.
Qed.

(** X4: no call of the binding changes a list that is on the host heap
    when the call is made: over any session of well-typed calls, a list
    that the host holds (one that an earlier [face_names()] returned, for
    one) has the same items afterwards, whatever the calls registered in
    between. *)
Theorem session_keeps_host_lists (cs : list host_call) (w : world S)
    (l : loc) (items : list py_object) :
  heap w !! l = Some items →
  heap (session eng cs w).1 !! l = Some items.
Proof.
  revert w. induction cs as [|c cs IH]; intros w Hl; [done|].
  cbn [session]. destruct (call_host_call_world c w) as (_ & _ & Hkeep).
  specialize (IH _ (Hkeep l items Hl)).
  by destruct (session eng cs _) as [w' later].
Qed.

(** X5: no call of the binding reads the host heap: from two worlds with
    the same engine state and any two heaps, a well-typed call makes the
    same engine call, leaves the same engine state, and returns the same
    boolean, or raises the same exception, or returns lists of the same
    items. *)
Theorem host_heap_never_read (c : host_call) (s : S) (h h' : py_heap) :
  let r := call eng FontEngine (method_name c) (arguments c) (World s h) in
  let r' := call eng FontEngine (method_name c) (arguments c) (World s h') in
  calls r = calls r'
  ∧ engine_state (final r) = engine_state (final r')
  ∧ match res r, res r' with
    | Returned (PyList out), Returned (PyList out') =>
        is_Some (heap (final r) !! out)
        ∧ heap (final r) !! out = heap (final r') !! out'
    | Returned v, Returned v' => v = v'
    | Raised e, Raised e' => e = e'
    | _, _ => False
    end.
Proof.
  cbn zeta. destruct c as [file_name|dir|dir recurse|]; cbn [method_name arguments].
  - rewrite !call_register_font. cbn.
    by destruct (engine_register_font eng file_name s) as [[[|]|e] s1].
  - rewrite !call_register_fonts1. cbn.
    by destruct (engine_register_fonts eng dir false s) as [[[|]|e] s1].
  - rewrite !call_register_fonts2. cbn.
    by destruct (engine_register_fonts eng dir recurse s) as [[[|]|e] s1].
  - rewrite !call_face_names.
    cbn. destruct (engine_face_names eng s) as [[names|e] s1]; cbn; [|done].
    destruct (forallb utf8_valid names); cbn; [|done].
    rewrite !lookup_insert_eq. by eauto.
Qed.

(** X7: the only host object a call creates is the list a [face_names()]
    returns: that list is at an address that held nothing, and the rest of
    the heap is as it was; a registration call, and any call that raises
    (a [face_names()] whose engine query throws has its list dropped
    again), leaves the heap exactly as it was. *)
Theorem call_creates_only_its_result (c : host_call) (w : world S) :
  let r := call eng FontEngine (method_name c) (arguments c) w in
  match res r with
  | Returned (PyList out) =>
      heap w !! out = None
      ∧ ∃ items, heap (final r) = <[out := items]> (heap w)
  | _ => heap (final r) = heap w
  end.
Proof.
  cbn zeta. destruct c as [file_name|dir|dir recurse|]; cbn [method_name arguments].
  - rewrite call_register_font. cbn.
    by destruct (engine_register_font eng file_name (engine_state w)) as [[[|]|e] s].
  - rewrite call_register_fonts1. cbn.
    by destruct (engine_register_fonts eng dir false (engine_state w)) as [[[|]|e] s].
  - rewrite call_register_fonts2. cbn.
    by destruct (engine_register_fonts eng dir recurse (engine_state w)) as [[[|]|e] s].
  - rewrite call_face_names. cbn.
    destruct (engine_face_names eng (engine_state w)) as [[names|e] s]; cbn;
      [|done].
    destruct (forallb utf8_valid names); cbn; [|done].
    split; [apply fresh_loc_unused|by eauto].
Qed.

End surface.

Lemma session_keeps_host_lists_witness :
  heap (final (call lenient_engine FontEngine "face_names" [] sample_world))
    !! 1%positive
  = Some [PyStr "Unifont Medium"; PyStr "DejaVu Sans Book"]
  ∧ heap (session lenient_engine
            [HRegisterFont "/test.ttf"; HRegisterFonts2 "/fonts" true; HFaceNames]
            (final (call lenient_engine FontEngine "face_names" [] sample_world))).1
      !! 1%positive
    = Some [PyStr "Unifont Medium"; PyStr "DejaVu Sans Book"].
Proof.
  split; [by vm_compute|].
  apply (session_keeps_host_lists lenient_engine
           [HRegisterFont "/test.ttf"; HRegisterFonts2 "/fonts" true; HFaceNames]
           (final (call lenient_engine FontEngine "face_names" [] sample_world))
           1%positive [PyStr "Unifont Medium"; PyStr "DejaVu Sans Book"]).
  by vm_compute.
Defined.
